(** * ServiceConfigManager: three-tier configuration resolution with a cache

    A shallow embedding of [service_config_manager.py].  Python dictionaries
    are finite maps ([gmap]); the manager object is a record whose mutable
    field, the cache, is threaded through a small state-and-exception monad
    together with the trace of calls made to the Dataloop platform. *)

From Stdlib Require Import ZArith.
From stdpp Require Import gmap strings fin_maps.

Open Scope string_scope.

(** ** Data model *)

(** Setting values are JSON-like ([Any] in the annotations).  The merge is
    shallow, so a nested value is carried around as one opaque value. *)
#[local] Unset Elimination Schemes.
Inductive value : Type :=
  | VNone
  | VBool (b : bool)
  | VInt (n : Z)
  | VStr (s : string)
  | VList (items : list value)
  | VDict (items : list (string * value)).
#[local] Set Elimination Schemes.

(** [Dict[str, Any]]: a flat mapping of setting names to values. *)
Abbreviation Settings := (gmap string value).
(** The section of one service: "*" or a dataset id to its settings. *)
Abbreviation ServiceSection := (gmap string (gmap string value)).
(** The ["service_configs"] metadata: service name to its section. *)
Abbreviation ServiceConfigs := (gmap string (gmap string (gmap string value))).
(** [Optional[str]]. *)
Abbreviation DatasetId := (option string).

Definition GLOBAL_KEY : string := "*".

(** Exceptions raised by the platform SDK. *)
Inductive exn : Type :=
  | NotFound (message : string)
  | PlatformException (status : string) (message : string).

(** The collaborator behind lines 70-74: [dl.datasets.get], [dataset.project],
    [project.datasets._get_binaries_dataset()] and the read of
    [binaries_dataset.metadata].  It either raises or yields the value stored
    under the metadata key ["service_configs"], if that key is there. *)
Record Platform : Type := mkPlatform {
  binaries_service_configs : DatasetId -> exn + option ServiceConfigs
}.

Record ServiceConfigManager : Type := mkManager {
  service_name : string;
  defaults : Settings;
  _config_cache : gmap DatasetId Settings
}.

(** The manager object together with the trace of platform fetches, oldest
    first. *)
Record World : Type := mkWorld {
  self : ServiceConfigManager;
  fetches : list DatasetId
}.

Definition with_cache (cache : gmap DatasetId Settings) (w : World) : World :=
  mkWorld (mkManager (service_name (self w)) (defaults (self w)) cache)
          (fetches w).

Definition with_fetch (dataset_id : DatasetId) (w : World) : World :=
  mkWorld (self w) (fetches w ++ [dataset_id]).

(** ** Python primitives *)

(** Truth value of an [Optional[str]]: [None] and [""] are falsy. *)
Definition truthy (dataset_id : DatasetId) : bool :=
  match dataset_id with
  | Some s => negb (String.eqb s "")
  | None => false
  end.

(** [d.get(k, dflt)]. *)
Definition dict_get {K} `{Countable K} {V} (d : gmap K V) (k : K) (dflt : V) : V :=
  default dflt (d !! k).

(** Subscript of a string-keyed dictionary by an [Optional[str]]: [None] is
    never a key of a dictionary decoded from JSON. *)
Definition key_lookup {V} (d : gmap string V) (k : DatasetId) : option V :=
  match k with
  | Some s => d !! s
  | None => None
  end.

(** [k in d]. *)
Definition dict_contains {V} (d : gmap string V) (k : DatasetId) : bool :=
  match key_lookup d k with
  | Some _ => true
  | None => false
  end.

(** [d.update(other)]: the entries of [other] win, key by key. *)
Definition dict_update (d other : Settings) : Settings := other ∪ d.

(** ** State and exceptions *)

Definition M (A : Type) : Type := World -> (exn + A) * World.

Definition ret {A} (a : A) : M A := fun w => (inr a, w).

Definition raise {A} (e : exn) : M A := fun w => (inl e, w).

Definition bind {A B} (m : M A) (f : A -> M B) : M B :=
  fun w =>
    match m w with
    | (inl e, w') => (inl e, w')
    | (inr a, w') => f a w'
    end.

Notation "'do' x <- m 'in' k" := (bind m (fun x => k))
  (at level 10, x name, m at level 100, k at level 200).
Notation "'run' m 'in' k" := (bind m (fun _ => k))
  (at level 10, m at level 100, k at level 200).

Definition get_cache : M (gmap DatasetId Settings) :=
  fun w => (inr (_config_cache (self w)), w).

Definition put_cache (cache : gmap DatasetId Settings) : M unit :=
  fun w => (inr tt, with_cache cache w).

Definition get_self : M ServiceConfigManager :=
  fun w => (inr (self w), w).

(** One round trip to the platform, recorded in the trace whether it raises
    or not. *)
Definition fetch (dl : Platform) (dataset_id : DatasetId) : M (option ServiceConfigs) :=
  fun w => (binaries_service_configs dl dataset_id, with_fetch dataset_id w).

(** ** The manager

    The calls to [logger] have no effect on what the methods return or on the
    cache and are left out. *)

(** [__init__]: [defaults or {}], and an empty cache. *)
Definition __init__ (name : string) (dflts : option Settings) : ServiceConfigManager :=
  mkManager name (default ∅ dflts) ∅.

(** Lines 84-110.  [dict(self.defaults)] is a copy, so the defaults of the
    manager are never written to. *)
Definition _resolve_config (this : ServiceConfigManager)
    (service_config : ServiceSection) (dataset_id : DatasetId) : Settings :=
  let resolved := defaults this in
  let global_config := dict_get service_config GLOBAL_KEY ∅ in
  let resolved := dict_update resolved global_config in
  if truthy dataset_id && dict_contains service_config dataset_id then
    let dataset_specific_config := default ∅ (key_lookup service_config dataset_id) in
    dict_update resolved dataset_specific_config
  else resolved.

(** Lines 52-82.  The membership test and the store into the cache use the
    id as it comes, [None] and [""] included. *)
Definition _load_dataset_config (dl : Platform) (dataset_id : DatasetId) : M Settings :=
  do cache <- get_cache in
  match cache !! dataset_id with
  | Some cached => ret cached
  | None =>
      do metadata <- fetch dl dataset_id in
      do this <- get_self in
      let full_config := default ∅ metadata in
      let service_config := dict_get full_config (service_name this) ∅ in
      let dataset_config := _resolve_config this service_config dataset_id in
      do cache <- get_cache in
      run put_cache (<[dataset_id := dataset_config]> cache) in
      ret dataset_config
  end.

Definition get_config (dl : Platform) (dataset_id : DatasetId) : M Settings :=
  _load_dataset_config dl dataset_id.

(** Lines 112-126.  The outer test is the truth value of the id. *)
Definition clear_cache (dataset_id : DatasetId) : M unit :=
  do cache <- get_cache in
  if truthy dataset_id then
    match cache !! dataset_id with
    | Some _ => put_cache (delete dataset_id cache)
    | None => ret tt
    end
  else put_cache ∅.

Definition reload_config (dl : Platform) (dataset_id : string) : M Settings :=
  run clear_cache (Some dataset_id) in
  _load_dataset_config dl (Some dataset_id).

(** ** The tier rule, in the words of the specification

    The value of setting [k] for a dataset id: the dataset's own entry of the
    section when it carries [k], otherwise the "*" entry when it carries [k],
    otherwise the defaults. *)
Definition tier_value (dflts : Settings) (section : ServiceSection)
    (dataset_id : string) (k : string) : option value :=
  match section !! dataset_id ≫= (.!! k) with
  | Some v => Some v
  | None =>
      match section !! GLOBAL_KEY ≫= (.!! k) with
      | Some v => Some v
      | None => dflts !! k
      end
  end.

(** The section [_load_dataset_config] extracts from what the platform
    returned (lines 74-76). *)
Definition section_of (this : ServiceConfigManager)
    (metadata : option ServiceConfigs) : ServiceSection :=
  dict_get (default ∅ metadata) (service_name this) ∅.

(** The tier [_resolve_config] overlays last: empty unless the id is truthy
    and a key of the section. *)
Definition dataset_tier (section : ServiceSection) (dataset_id : DatasetId) : Settings :=
  if truthy dataset_id then default ∅ (key_lookup section dataset_id) else ∅.

(** ** The scenario of the specification *)

Definition example_defaults : Settings := {[ "quality" := VInt 5 ]}.

Definition example_section : ServiceSection :=
  {[ "*" := {[ "quality" := VInt 10; "format" := VStr "mp4" ]};
     "ds1" := {[ "quality" := VInt 20 ]} ]}.

Definition example_platform (name : string) : Platform :=
  mkPlatform (fun _ => inr (Some {[ name := example_section ]})).

Definition fresh (name : string) (dflts : option Settings) : World :=
  mkWorld (__init__ name dflts) [].

(** ** Callers

    A caller holds one manager and calls its public methods one after the
    other, going on after a call that raised; the platform may answer
    differently at every call. *)
Inductive call : Type :=
  | GetConfig (dataset_id : DatasetId)
  | ClearCache (dataset_id : DatasetId)
  | ReloadConfig (dataset_id : string).

(** The state a call leaves behind, whatever it returned or raised. *)
Definition perform (dl : Platform) (c : call) (w : World) : World :=
  match c with
  | GetConfig dataset_id => snd (get_config dl dataset_id w)
  | ClearCache dataset_id => snd (clear_cache dataset_id w)
  | ReloadConfig dataset_id => snd (reload_config dl dataset_id w)
  end.

Fixpoint perform_all (calls : list (Platform * call)) (w : World) : World :=
  match calls with
  | [] => w
  | (dl, c) :: rest => perform_all rest (perform dl c w)
  end.

(** The id a call may have to fetch. *)
Definition requested (c : call) : option DatasetId :=
  match c with
  | GetConfig dataset_id => Some dataset_id
  | ClearCache _ => None
  | ReloadConfig dataset_id => Some (Some dataset_id)
  end.

(** ** Basic facts about the primitives *)

Lemma truthy_Some (s : string) : truthy (Some s) = true ↔ s ≠ "".
Proof.
  unfold truthy. destruct (String.eqb_spec s ""); simpl; split; congruence.
Qed.

Lemma truthy_nonempty (s : string) : s ≠ "" → truthy (Some s) = true.
Proof. apply truthy_Some. Qed.

Lemma dict_update_empty (d : Settings) : dict_update d ∅ = d.
Proof. unfold dict_update. apply (left_id_L ∅ (∪)). Qed.

Lemma dict_update_lookup (d other : Settings) (k : string) :
  dict_update d other !! k =
    match other !! k with Some v => Some v | None => d !! k end.
Proof.
  unfold dict_update. rewrite lookup_union.
  destruct (other !! k), (d !! k); reflexivity.
Qed.

Lemma dict_update_twice (d other : Settings) :
  dict_update (dict_update d other) other = dict_update d other.
Proof.
  apply map_eq; intros k. rewrite !dict_update_lookup.
  destruct (other !! k); reflexivity.
Qed.

(** ** Resolution *)

Lemma resolve_config_tiers this section dataset_id :
  _resolve_config this section dataset_id =
    dict_update (dict_update (defaults this) (dict_get section GLOBAL_KEY ∅))
                (dataset_tier section dataset_id).
Proof.
  unfold _resolve_config, dataset_tier, dict_contains.
  destruct (truthy dataset_id); simpl.
  - destruct (key_lookup section dataset_id); simpl;
      [reflexivity | by rewrite dict_update_empty].
  - by rewrite dict_update_empty.
Qed.

Lemma resolve_config_falsy this section dataset_id :
  truthy dataset_id = false →
  _resolve_config this section dataset_id =
    dict_update (defaults this) (dict_get section GLOBAL_KEY ∅).
Proof. intros Hf. unfold _resolve_config. by rewrite Hf. Qed.

Lemma resolve_config_lookup this section (id k : string) :
  id ≠ "" →
  _resolve_config this section (Some id) !! k =
    tier_value (defaults this) section id k.
Proof.
  intros Hid. rewrite resolve_config_tiers. unfold dataset_tier, tier_value.
  rewrite (truthy_nonempty _ Hid), !dict_update_lookup.
  unfold dict_get; simpl.
  destruct (section !! id) as [tier|]; simpl;
    [destruct (tier !! k); [reflexivity|] | rewrite lookup_empty];
    destruct (section !! GLOBAL_KEY) as [glob|]; simpl;
    try rewrite lookup_empty; try destruct (glob !! k); reflexivity.
Qed.

(** ** The three paths through [_load_dataset_config] *)

Lemma load_hit dl dataset_id w cached :
  _config_cache (self w) !! dataset_id = Some cached →
  _load_dataset_config dl dataset_id w = (inr cached, w).
Proof.
  intros Hc. unfold _load_dataset_config, bind, get_cache; simpl.
  by rewrite Hc.
Qed.

Lemma load_miss_raises dl dataset_id w e :
  _config_cache (self w) !! dataset_id = None →
  binaries_service_configs dl dataset_id = inl e →
  _load_dataset_config dl dataset_id w = (inl e, with_fetch dataset_id w).
Proof.
  intros Hc He. unfold _load_dataset_config, bind, get_cache, fetch; simpl.
  by rewrite Hc, He.
Qed.

Lemma load_miss_returns dl dataset_id w metadata :
  _config_cache (self w) !! dataset_id = None →
  binaries_service_configs dl dataset_id = inr metadata →
  let resolved :=
    _resolve_config (self w) (section_of (self w) metadata) dataset_id in
  _load_dataset_config dl dataset_id w =
    (inr resolved,
     with_cache (<[dataset_id := resolved]> (_config_cache (self w)))
                (with_fetch dataset_id w)).
Proof.
  intros Hc Hm. unfold _load_dataset_config, bind, get_cache, fetch; simpl.
  by rewrite Hc, Hm.
Qed.

(** ** Clearing *)

Lemma clear_cache_truthy dataset_id w :
  truthy dataset_id = true →
  clear_cache dataset_id w =
    (inr tt,
     match _config_cache (self w) !! dataset_id with
     | Some _ => with_cache (delete dataset_id (_config_cache (self w))) w
     | None => w
     end).
Proof.
  intros Ht. unfold clear_cache, bind, get_cache; simpl. rewrite Ht.
  by destruct (_config_cache (self w) !! dataset_id).
Qed.

Lemma clear_cache_falsy dataset_id w :
  truthy dataset_id = false →
  clear_cache dataset_id w = (inr tt, with_cache ∅ w).
Proof.
  intros Ht. unfold clear_cache, bind, get_cache; simpl. by rewrite Ht.
Qed.

(** ** Three-tier resolution through [get_config] *)

(** C1 fails as stated: the empty string is a dataset id a caller can
    provide, and when it is a key of the section its settings are not
    applied. *)
Lemma get_config_empty_id_skips_dataset_tier :
  let section : ServiceSection := {[ "" := {[ "quality" := VInt 1 ]} ]} in
  let dl := mkPlatform (fun _ => inr (Some {[ "svc" := section ]})) in
  ∃ resolved,
    fst (get_config dl (Some "") (fresh "svc" None)) = inr resolved ∧
    section !! "" ≫= (.!! "quality") = Some (VInt 1) ∧
    tier_value ∅ section "" "quality" = Some (VInt 1) ∧
    resolved !! "quality" = None ∧
    _resolve_config (__init__ "svc" None) section (Some "") !! "quality" = None.
Proof. eexists. repeat split; vm_compute; reflexivity. Qed.

(** C1 (amended): for a non-empty dataset id with no cached entry and a
    successful fetch, [get_config] returns a mapping that sends every setting
    name to the dataset-specific value when the id is a key of the section
    and carries the setting, otherwise to the "*" value when present,
    otherwise to the defaults value; a name in none of the three tiers is
    absent from the result. *)
Theorem get_config_three_tiers dl (id : string) w metadata :
  id ≠ "" →
  _config_cache (self w) !! Some id = None →
  binaries_service_configs dl (Some id) = inr metadata →
  ∃ resolved,
    fst (get_config dl (Some id) w) = inr resolved ∧
    (∀ k, resolved !! k =
            tier_value (defaults (self w)) (section_of (self w) metadata) id k) ∧
    (∀ k, defaults (self w) !! k = None →
          section_of (self w) metadata !! GLOBAL_KEY ≫= (.!! k) = None →
          section_of (self w) metadata !! id ≫= (.!! k) = None →
          resolved !! k = None).
Proof.
  intros Hid Hc Hm. eexists. unfold get_config.
  rewrite (load_miss_returns _ _ _ _ Hc Hm); simpl.
  split; [reflexivity|]. split.
  - intros k. by apply resolve_config_lookup.
  - intros k Hd Hg He. rewrite resolve_config_lookup by done.
    unfold tier_value. by rewrite He, Hg.
Qed.

Lemma get_config_three_tiers_witness :
  ∃ resolved,
    fst (get_config (example_platform "svc") (Some "ds1")
           (fresh "svc" (Some example_defaults))) = inr resolved ∧
    resolved !! "quality" = Some (VInt 20) ∧
    resolved !! "format" = Some (VStr "mp4") ∧
    resolved !! "bitrate" = None.
Proof.
  assert (Hid : "ds1" ≠ "") by discriminate.
  assert (Hc : _config_cache (self (fresh "svc" (Some example_defaults)))
                 !! Some "ds1" = None) by reflexivity.
  assert (Hm : binaries_service_configs (example_platform "svc") (Some "ds1")
               = inr (Some {[ "svc" := example_section ]})) by reflexivity.
  destruct (get_config_three_tiers _ _ _ _ Hid Hc Hm)
    as (resolved & Hr & Hk & Habs).
  exists resolved. split; [exact Hr|].
  rewrite !Hk. repeat split; vm_compute; reflexivity.
Defined.

(** C2: with defaults [{"quality": 5}] and the section
    [{"*": {"quality": 10, "format": "mp4"}, "ds1": {"quality": 20}}] stored
    for the manager's service, [get_config("ds1")] returns
    [{"quality": 20, "format": "mp4"}] and [get_config("ds2")] returns
    [{"quality": 10, "format": "mp4"}], one after the other on the same
    manager as well as each on a fresh one. *)
Theorem get_config_example dl name raw1 raw2 :
  binaries_service_configs dl (Some "ds1") = inr (Some raw1) →
  raw1 !! name = Some example_section →
  binaries_service_configs dl (Some "ds2") = inr (Some raw2) →
  raw2 !! name = Some example_section →
  let w0 := fresh name (Some example_defaults) in
  let for_ds1 : Settings := {[ "quality" := VInt 20; "format" := VStr "mp4" ]} in
  let for_ds2 : Settings := {[ "quality" := VInt 10; "format" := VStr "mp4" ]} in
  fst (get_config dl (Some "ds1") w0) = inr for_ds1 ∧
  fst (get_config dl (Some "ds2") w0) = inr for_ds2 ∧
  fst (get_config dl (Some "ds2") (snd (get_config dl (Some "ds1") w0)))
    = inr for_ds2.
Proof.
  intros H1 Hs1 H2 Hs2 w0 for_ds1 for_ds2. unfold get_config.
  assert (Hsec1 : section_of (self w0) (Some raw1) = example_section)
    by (unfold section_of, dict_get; simpl; by rewrite Hs1).
  assert (Hsec2 : section_of (self w0) (Some raw2) = example_section)
    by (unfold section_of, dict_get; simpl; by rewrite Hs2).
  rewrite (load_miss_returns dl (Some "ds1") w0 (Some raw1)) by done.
  rewrite (load_miss_returns dl (Some "ds2") w0 (Some raw2)) by done.
  cbn [fst snd]. rewrite Hsec1, Hsec2.
  split; [vm_compute; reflexivity|]. split; [vm_compute; reflexivity|].
  match goal with |- context [_load_dataset_config dl (Some "ds2") ?w] =>
    rewrite (load_miss_returns dl (Some "ds2") w (Some raw2))
  end.
  - cbn [fst]. f_equal.
    change (self (with_cache _ (with_fetch _ w0)))
      with (mkManager name example_defaults
              (<[Some "ds1" := _resolve_config (self w0) example_section (Some "ds1")]> ∅)).
    unfold section_of, dict_get; cbn [service_name default]; unfold id.
    rewrite Hs2. vm_compute; reflexivity.
  - reflexivity.
  - exact H2.
Qed.

Lemma get_config_example_witness :
  fst (get_config (example_platform "webm-converter") (Some "ds1")
         (fresh "webm-converter" (Some example_defaults)))
    = inr {[ "quality" := VInt 20; "format" := VStr "mp4" ]} ∧
  fst (get_config (example_platform "webm-converter") (Some "ds2")
         (fresh "webm-converter" (Some example_defaults)))
    = inr {[ "quality" := VInt 10; "format" := VStr "mp4" ]}.
Proof.
  pose proof (get_config_example (example_platform "webm-converter")
                "webm-converter"
                {[ "webm-converter" := example_section ]}
                {[ "webm-converter" := example_section ]}
                eq_refl eq_refl eq_refl eq_refl) as (H1 & H2 & _).
  split; [exact H1 | exact H2].
Defined.

(** C3: when no entry is cached for the id and the fetched configuration has
    no section for the manager's service, [get_config] returns a mapping
    equal to the defaults. *)
Theorem get_config_no_section dl dataset_id w metadata :
  _config_cache (self w) !! dataset_id = None →
  binaries_service_configs dl dataset_id = inr metadata →
  default ∅ metadata !! service_name (self w) = None →
  fst (get_config dl dataset_id w) = inr (defaults (self w)).
Proof.
  intros Hc Hm Hs. unfold get_config.
  rewrite (load_miss_returns _ _ _ _ Hc Hm); simpl. f_equal.
  rewrite resolve_config_tiers.
  assert (Hsec : section_of (self w) metadata = ∅)
    by (unfold section_of, dict_get; by rewrite Hs).
  rewrite Hsec. unfold dataset_tier, dict_get.
  rewrite lookup_empty; simpl.
  destruct dataset_id as [id|]; simpl;
    [rewrite lookup_empty; simpl; destruct (negb _)|];
    by rewrite !dict_update_empty.
Qed.

Lemma get_config_no_section_witness :
  fst (get_config (mkPlatform (fun _ => inr (Some {[ "other" := example_section ]})))
         (Some "ds1") (fresh "svc" (Some example_defaults)))
    = inr example_defaults.
Proof.
  apply (get_config_no_section
           (mkPlatform (fun _ => inr (Some {[ "other" := example_section ]})))
           (Some "ds1") (fresh "svc" (Some example_defaults))
           (Some {[ "other" := example_section ]})); reflexivity.
Defined.

(** ** The cache *)

(** After a call of [get_config] that returns, the cache holds the returned
    mapping under the id that was asked for. *)
Lemma get_config_returns_cached dl dataset_id w resolved w' :
  get_config dl dataset_id w = (inr resolved, w') →
  _config_cache (self w') !! dataset_id = Some resolved.
Proof.
  unfold get_config. intros Hrun.
  destruct (_config_cache (self w) !! dataset_id) as [cached|] eqn:Hc.
  - rewrite (load_hit _ _ _ _ Hc) in Hrun. by simplify_eq.
  - destruct (binaries_service_configs dl dataset_id) as [e|metadata] eqn:Hm.
    + rewrite (load_miss_raises _ _ _ _ Hc Hm) in Hrun. discriminate.
    + rewrite (load_miss_returns _ _ _ _ Hc Hm) in Hrun.
      simplify_eq; simpl. apply lookup_insert_eq.
Qed.

(** C4: a cached entry is returned as it is, with the manager and the trace
    of fetches unchanged; so a second [get_config] for the same id, right
    after one that returned, returns the same mapping and fetches nothing,
    whatever the platform would answer by then. *)
Theorem get_config_cache_hit dl dl' dataset_id w :
  (∀ cached,
     _config_cache (self w) !! dataset_id = Some cached →
     get_config dl dataset_id w = (inr cached, w)) ∧
  (∀ resolved w',
     get_config dl dataset_id w = (inr resolved, w') →
     get_config dl' dataset_id w' = (inr resolved, w') ∧
     fetches (snd (get_config dl' dataset_id w')) = fetches w').
Proof.
  split.
  - intros cached Hc. by apply load_hit.
  - intros resolved w' Hrun.
    apply get_config_returns_cached in Hrun.
    unfold get_config. by rewrite (load_hit _ _ _ _ Hrun).
Qed.

Lemma get_config_cache_hit_witness :
  let dl := example_platform "svc" in
  let dl' := mkPlatform (fun _ => inl (NotFound "gone")) in
  let stale : Settings := {[ "quality" := VInt 7 ]} in
  let w := with_cache {[ Some "ds1" := stale ]} (fresh "svc" None) in
  get_config dl (Some "ds1") w = (inr stale, w) ∧
  get_config dl' (Some "ds2") (snd (get_config dl (Some "ds2") (fresh "svc" None)))
    = get_config dl (Some "ds2") (fresh "svc" None).
Proof.
  intros dl dl' stale w. split.
  - apply (proj1 (get_config_cache_hit dl dl' (Some "ds1") w)). reflexivity.
  - destruct (get_config dl (Some "ds2") (fresh "svc" None))
      as [[e|resolved] w'] eqn:Hrun; [discriminate Hrun|].
    apply (proj2 (get_config_cache_hit dl dl' (Some "ds2") (fresh "svc" None))).
    exact Hrun.
Defined.

(** C5: when no entry is cached for the id and the fetch raises,
    [get_config] raises that same exception after exactly one fetch, and the
    manager, its cache included, is as it was. *)
Theorem get_config_fetch_raises dl dataset_id w e :
  _config_cache (self w) !! dataset_id = None →
  binaries_service_configs dl dataset_id = inl e →
  ∃ w',
    get_config dl dataset_id w = (inl e, w') ∧
    self w' = self w ∧
    _config_cache (self w') !! dataset_id = None ∧
    fetches w' = (fetches w ++ [dataset_id])%list.
Proof.
  intros Hc He. exists (with_fetch dataset_id w). unfold get_config.
  rewrite (load_miss_raises _ _ _ _ Hc He). by repeat split.
Qed.

Lemma get_config_fetch_raises_witness :
  let dl := mkPlatform (fun _ => inl (NotFound "ds9")) in
  let w := with_cache {[ Some "ds1" := example_defaults ]} (fresh "svc" None) in
  ∃ w',
    get_config dl (Some "ds9") w = (inl (NotFound "ds9"), w') ∧
    self w' = self w ∧
    _config_cache (self w') !! Some "ds9" = None ∧
    fetches w' = [Some "ds9"].
Proof.
  intros dl w.
  apply (get_config_fetch_raises dl (Some "ds9") w (NotFound "ds9"));
    reflexivity.
Defined.

(** C6: with no cached entry and a fetch that returns, [get_config] returns
    without raising: the result is the defaults overlaid with the "*" entry
    and with the dataset's entry, each taken as empty when it is missing.  In
    particular a missing section leaves the defaults, a missing "*" key
    leaves defaults and dataset entry, and a missing dataset entry leaves
    defaults and "*" entry. *)
Theorem get_config_missing_tiers dl dataset_id w metadata :
  _config_cache (self w) !! dataset_id = None →
  binaries_service_configs dl dataset_id = inr metadata →
  let section := section_of (self w) metadata in
  ∃ resolved,
    fst (get_config dl dataset_id w) = inr resolved ∧
    resolved =
      dict_update (dict_update (defaults (self w)) (default ∅ (section !! GLOBAL_KEY)))
                  (dataset_tier section dataset_id) ∧
    (default ∅ metadata !! service_name (self w) = None →
     section = ∅ ∧ resolved = defaults (self w)) ∧
    (section !! GLOBAL_KEY = None →
     resolved = dict_update (defaults (self w)) (dataset_tier section dataset_id)) ∧
    (key_lookup section dataset_id = None →
     resolved = dict_update (defaults (self w)) (default ∅ (section !! GLOBAL_KEY))).
Proof.
  intros Hc Hm section. eexists. unfold get_config.
  rewrite (load_miss_returns _ _ _ _ Hc Hm); cbn [fst].
  split; [reflexivity|]. fold section.
  assert (Hres : _resolve_config (self w) section dataset_id =
      dict_update (dict_update (defaults (self w)) (default ∅ (section !! GLOBAL_KEY)))
                  (dataset_tier section dataset_id))
    by apply resolve_config_tiers.
  split; [exact Hres|]. rewrite Hres. repeat split.
  - unfold section, section_of, dict_get.
    match goal with Hs : _ !! _ = None |- _ => by rewrite Hs end.
  - assert (Hsec : section = ∅).
    { unfold section, section_of, dict_get.
      match goal with Hs : _ !! _ = None |- _ => by rewrite Hs end. }
    rewrite Hsec. unfold dataset_tier. rewrite lookup_empty; simpl.
    destruct dataset_id as [id|]; simpl;
      [rewrite lookup_empty; simpl; destruct (negb _)|];
      by rewrite !dict_update_empty.
  - intros Hg. rewrite Hg; simpl. by rewrite dict_update_empty.
  - intros He. unfold dataset_tier. rewrite He; simpl.
    destruct (truthy dataset_id); by rewrite dict_update_empty.
Qed.

Lemma get_config_missing_tiers_witness :
  let only_global : ServiceSection := {[ "*" := {[ "format" := VStr "mp4" ]} ]} in
  let dl := mkPlatform (fun _ => inr (Some {[ "svc" := only_global ]})) in
  fst (get_config dl (Some "ds2") (fresh "svc" (Some example_defaults)))
    = inr (dict_update example_defaults {[ "format" := VStr "mp4" ]}).
Proof.
  intros only_global dl.
  assert (Hc : _config_cache (self (fresh "svc" (Some example_defaults)))
                 !! Some "ds2" = None) by reflexivity.
  assert (Hm : binaries_service_configs dl (Some "ds2")
               = inr (Some {[ "svc" := only_global ]})) by reflexivity.
  destruct (get_config_missing_tiers dl (Some "ds2") _ _ Hc Hm)
    as (resolved & Hr & _ & _ & _ & Hno_entry).
  rewrite Hr. f_equal. apply Hno_entry. reflexivity.
Defined.

(** ** Invalidation *)

(** C7 fails as stated: given the empty string, [clear_cache] drops the
    entries of the other ids too. *)
Lemma clear_cache_empty_id_drops_others :
  let kept : Settings := {[ "quality" := VInt 20 ]} in
  let w := with_cache {[ Some "" := example_defaults; Some "ds1" := kept ]}
                      (fresh "svc" None) in
  _config_cache (self w) !! Some "ds1" = Some kept ∧
  fst (clear_cache (Some "") w) = inr tt ∧
  _config_cache (self (snd (clear_cache (Some "") w))) !! Some "ds1" = None.
Proof. repeat split; vm_compute; reflexivity. Qed.

(** C7 (amended): for a non-empty id, [clear_cache] raises nothing, leaves no
    entry for that id, changes nothing at all when there was none, and leaves
    every other id's entry, the settings of the manager and the trace as they
    were; without an id it empties the cache. *)
Theorem clear_cache_frame (id : string) w :
  id ≠ "" →
  ∃ w',
    clear_cache (Some id) w = (inr tt, w') ∧
    _config_cache (self w') = delete (Some id) (_config_cache (self w)) ∧
    _config_cache (self w') !! Some id = None ∧
    (∀ other, other ≠ Some id →
       _config_cache (self w') !! other = _config_cache (self w) !! other) ∧
    (_config_cache (self w) !! Some id = None → w' = w) ∧
    service_name (self w') = service_name (self w) ∧
    defaults (self w') = defaults (self w) ∧
    fetches w' = fetches w ∧
    clear_cache None w = (inr tt, with_cache ∅ w).
Proof.
  intros Hid. rewrite (clear_cache_truthy (Some id) w (truthy_nonempty _ Hid)).
  rewrite (clear_cache_falsy None w eq_refl).
  destruct (_config_cache (self w) !! Some id) as [cached|] eqn:Hc;
    eexists; (split; [reflexivity|]); simpl.
  - repeat split; try done.
    + apply lookup_delete_eq.
    + intros other Hne. by apply lookup_delete_ne.
  - repeat split; try done.
    symmetry. by apply delete_id.
Qed.

Lemma clear_cache_frame_witness :
  let kept : Settings := {[ "quality" := VInt 20 ]} in
  let w := with_cache {[ Some "ds1" := example_defaults; Some "ds2" := kept ]}
                      (fresh "svc" None) in
  ∃ w',
    clear_cache (Some "ds1") w = (inr tt, w') ∧
    _config_cache (self w') !! Some "ds1" = None ∧
    _config_cache (self w') !! Some "ds2" = Some kept.
Proof.
  intros kept w.
  assert (Hid : "ds1" ≠ "") by discriminate.
  destruct (clear_cache_frame "ds1" w Hid)
    as (w' & Hrun & _ & Hgone & Hframe & _).
  exists w'. split; [exact Hrun|]. split; [exact Hgone|].
  rewrite Hframe by discriminate. reflexivity.
Defined.

(** C8 fails as stated: [reload_config] of the empty string empties the
    cache before it fetches, so the entries of other ids are lost. *)
Lemma reload_config_empty_id_drops_others :
  let kept : Settings := {[ "quality" := VInt 20 ]} in
  let w := with_cache {[ Some "ds1" := kept ]} (fresh "svc" None) in
  _config_cache (self w) !! Some "ds1" = Some kept ∧
  fst (reload_config (example_platform "svc") "" w) = inr (default ∅ (example_section !! "*")) ∧
  _config_cache (self (snd (reload_config (example_platform "svc") "" w)))
    !! Some "ds1" = None.
Proof. repeat split; vm_compute; reflexivity. Qed.

(** C8 (amended): [reload_config] is [clear_cache] followed by [get_config];
    whatever the cache held, it fetches exactly once and returns the merge of
    what was fetched, or raises what the fetch raised; and for a non-empty id
    the entries of all other ids are left as they were. *)
Theorem reload_config_fresh dl (id : string) w :
  reload_config dl id w
    = (run clear_cache (Some id) in get_config dl (Some id)) w ∧
  fetches (snd (reload_config dl id w)) = (fetches w ++ [Some id])%list ∧
  match binaries_service_configs dl (Some id) with
  | inl e => fst (reload_config dl id w) = inl e
  | inr metadata =>
      let resolved :=
        _resolve_config (self w) (section_of (self w) metadata) (Some id) in
      fst (reload_config dl id w) = inr resolved ∧
      _config_cache (self (snd (reload_config dl id w))) !! Some id
        = Some resolved
  end ∧
  (id ≠ "" →
   ∀ other, other ≠ Some id →
     _config_cache (self (snd (reload_config dl id w))) !! other
       = _config_cache (self w) !! other).
Proof.
  split; [reflexivity|].
  assert (Hclear : ∃ w1,
      clear_cache (Some id) w = (inr tt, w1) ∧
      _config_cache (self w1) !! Some id = None ∧
      service_name (self w1) = service_name (self w) ∧
      defaults (self w1) = defaults (self w) ∧
      fetches w1 = fetches w ∧
      (id ≠ "" → ∀ other, other ≠ Some id →
         _config_cache (self w1) !! other = _config_cache (self w) !! other)).
  { destruct (truthy (Some id)) eqn:Ht.
    - rewrite (clear_cache_truthy _ _ Ht).
      destruct (_config_cache (self w) !! Some id) eqn:Hc; eexists;
        (split; [reflexivity|]); simpl; repeat split; try done.
      + apply lookup_delete_eq.
      + intros _ other Hne. by apply lookup_delete_ne.
    - rewrite (clear_cache_falsy _ _ Ht). eexists.
      split; [reflexivity|]. simpl. repeat split; try done.
      intros Hid. apply truthy_nonempty in Hid. congruence. }
  destruct Hclear as (w1 & Hrun & Hmiss & Hname & Hdef & Hfetch & Hframe).
  unfold reload_config, bind. rewrite Hrun.
  destruct (binaries_service_configs dl (Some id)) as [e|metadata] eqn:Hm.
  - rewrite (load_miss_raises _ _ _ _ Hmiss Hm); simpl.
    rewrite Hfetch. repeat split. exact Hframe.
  - rewrite (load_miss_returns _ _ _ _ Hmiss Hm); simpl.
    assert (Hself : _resolve_config (self w1) (section_of (self w1) metadata) (Some id)
                  = _resolve_config (self w) (section_of (self w) metadata) (Some id)).
    { unfold section_of. rewrite Hname.
      rewrite !resolve_config_tiers. by rewrite Hdef. }
    rewrite Hfetch, Hself. repeat split.
    + apply lookup_insert_eq.
    + intros Hid other Hne. rewrite lookup_insert_ne by done.
      by apply Hframe.
Qed.

Lemma reload_config_fresh_witness :
  let stale : Settings := {[ "quality" := VInt 7 ]} in
  let kept : Settings := {[ "quality" := VInt 20 ]} in
  let w := with_cache {[ Some "ds2" := stale; Some "ds1" := kept ]}
                      (fresh "svc" (Some example_defaults)) in
  fetches (snd (reload_config (example_platform "svc") "ds2" w)) = [Some "ds2"] ∧
  _config_cache (self (snd (reload_config (example_platform "svc") "ds2" w)))
    !! Some "ds1" = Some kept.
Proof.
  intros stale kept w.
  destruct (reload_config_fresh (example_platform "svc") "ds2" w)
    as (_ & Hfetch & _ & Hframe).
  split; [exact Hfetch|].
  rewrite Hframe by discriminate. reflexivity.
Defined.

(** ** Ids that are not ordinary keys *)

(** C9: the empty string counts as no id.  [_resolve_config] never applies a
    dataset tier for it, even when it is a key of the section, so the result
    is the defaults overlaid with the "*" entry only; and [clear_cache] of
    the empty string empties the whole cache. *)
Theorem empty_id_is_no_id this (section : ServiceSection) w :
  _resolve_config this section (Some "")
    = dict_update (defaults this) (dict_get section GLOBAL_KEY ∅) ∧
  _resolve_config this section (Some "") = _resolve_config this section None ∧
  clear_cache (Some "") w = (inr tt, with_cache ∅ w) ∧
  _config_cache (self (snd (clear_cache (Some "") w))) = ∅.
Proof.
  rewrite (clear_cache_falsy (Some "") w eq_refl).
  rewrite !resolve_config_falsy by reflexivity.
  by repeat split.
Qed.

(** C10: the id "*" is accepted like any other.  With no cached entry and a
    fetch that returns, [get_config] returns without raising; the "*" entry
    of the section is overlaid twice, as the global and as the dataset tier,
    and the result is the resolution performed without an id. *)
Theorem get_config_global_key_as_id dl w metadata :
  _config_cache (self w) !! Some GLOBAL_KEY = None →
  binaries_service_configs dl (Some GLOBAL_KEY) = inr metadata →
  let section := section_of (self w) metadata in
  let global_config := dict_get section GLOBAL_KEY ∅ in
  ∃ resolved,
    fst (get_config dl (Some GLOBAL_KEY) w) = inr resolved ∧
    resolved = dict_update (dict_update (defaults (self w)) global_config)
                           global_config ∧
    resolved = _resolve_config (self w) section None.
Proof.
  intros Hc Hm section global_config. eexists. unfold get_config.
  rewrite (load_miss_returns _ _ _ _ Hc Hm); cbn [fst]. fold section.
  split; [reflexivity|].
  rewrite (resolve_config_falsy _ _ None eq_refl), resolve_config_tiers.
  fold global_config.
  assert (Htier : dataset_tier section (Some GLOBAL_KEY) = global_config)
    by reflexivity.
  rewrite Htier. split; [reflexivity|]. apply dict_update_twice.
Qed.

Lemma get_config_global_key_as_id_witness :
  fst (get_config (example_platform "svc") (Some "*")
         (fresh "svc" (Some example_defaults)))
    = inr (_resolve_config (__init__ "svc" (Some example_defaults))
             example_section None).
Proof.
  assert (Hc : _config_cache (self (fresh "svc" (Some example_defaults)))
                 !! Some GLOBAL_KEY = None) by reflexivity.
  assert (Hm : binaries_service_configs (example_platform "svc") (Some GLOBAL_KEY)
               = inr (Some {[ "svc" := example_section ]})) by reflexivity.
  destruct (get_config_global_key_as_id _ _ _ Hc Hm)
    as (resolved & Hr & _ & Hnone).
  change (Some "*") with (Some GLOBAL_KEY). rewrite Hr, Hnone.
  f_equal.
Defined.

(** ** Every path of the methods at once *)

Lemma get_config_cases dl dataset_id w :
  get_config dl dataset_id w =
    match _config_cache (self w) !! dataset_id with
    | Some cached => (inr cached, w)
    | None =>
        match binaries_service_configs dl dataset_id with
        | inl e => (inl e, with_fetch dataset_id w)
        | inr metadata =>
            let resolved :=
              _resolve_config (self w) (section_of (self w) metadata) dataset_id in
            (inr resolved,
             with_cache (<[dataset_id := resolved]> (_config_cache (self w)))
                        (with_fetch dataset_id w))
        end
    end.
Proof.
  unfold get_config.
  destruct (_config_cache (self w) !! dataset_id) as [cached|] eqn:Hc.
  - by apply load_hit.
  - destruct (binaries_service_configs dl dataset_id) as [e|metadata] eqn:Hm.
    + by apply load_miss_raises.
    + by apply load_miss_returns.
Qed.

Lemma clear_cache_cases dataset_id w :
  clear_cache dataset_id w =
    (inr tt,
     if truthy dataset_id then
       match _config_cache (self w) !! dataset_id with
       | Some _ => with_cache (delete dataset_id (_config_cache (self w))) w
       | None => w
       end
     else with_cache ∅ w).
Proof.
  destruct (truthy dataset_id) eqn:Ht.
  - by apply clear_cache_truthy.
  - by apply clear_cache_falsy.
Qed.

Lemma reload_config_cases dl (id : string) w :
  reload_config dl id w = get_config dl (Some id) (snd (clear_cache (Some id) w)).
Proof.
  unfold reload_config, bind, get_config. by rewrite clear_cache_cases.
Qed.

Lemma clear_cache_settings dataset_id w :
  service_name (self (snd (clear_cache dataset_id w))) = service_name (self w) ∧
  defaults (self (snd (clear_cache dataset_id w))) = defaults (self w) ∧
  fetches (snd (clear_cache dataset_id w)) = fetches w.
Proof.
  rewrite clear_cache_cases; cbn [snd].
  destruct (truthy dataset_id);
    [destruct (_config_cache (self w) !! dataset_id)|]; done.
Qed.

Lemma clear_cache_entry_gone dataset_id w :
  _config_cache (self (snd (clear_cache dataset_id w))) !! dataset_id = None.
Proof.
  rewrite clear_cache_cases; cbn [snd].
  destruct (truthy dataset_id);
    [destruct (_config_cache (self w) !! dataset_id) eqn:Hc|]; simpl.
  - apply lookup_delete_eq.
  - exact Hc.
  - apply lookup_empty.
Qed.

Lemma clear_cache_shrinks dataset_id w :
  _config_cache (self (snd (clear_cache dataset_id w))) ⊆ _config_cache (self w).
Proof.
  rewrite clear_cache_cases; cbn [snd].
  destruct (truthy dataset_id);
    [destruct (_config_cache (self w) !! dataset_id)|]; simpl.
  - apply delete_subseteq.
  - done.
  - apply map_empty_subseteq.
Qed.

Lemma get_config_settings dl dataset_id w :
  service_name (self (snd (get_config dl dataset_id w))) = service_name (self w) ∧
  defaults (self (snd (get_config dl dataset_id w))) = defaults (self w).
Proof.
  rewrite get_config_cases.
  destruct (_config_cache (self w) !! dataset_id);
    [|destruct (binaries_service_configs dl dataset_id)]; done.
Qed.

Lemma perform_settings dl c w :
  service_name (self (perform dl c w)) = service_name (self w) ∧
  defaults (self (perform dl c w)) = defaults (self w).
Proof.
  destruct c as [d|d|d]; simpl.
  - apply get_config_settings.
  - destruct (clear_cache_settings d w) as (? & ? & _). done.
  - rewrite reload_config_cases.
    destruct (get_config_settings dl (Some d) (snd (clear_cache (Some d) w)))
      as [Hn Hd].
    destruct (clear_cache_settings (Some d) w) as (Hn' & Hd' & _).
    split; congruence.
Qed.

Lemma resolve_config_same_settings this this' section dataset_id :
  defaults this = defaults this' →
  _resolve_config this section dataset_id = _resolve_config this' section dataset_id.
Proof. intros Hd. unfold _resolve_config. by rewrite Hd. Qed.

Lemma resolve_config_dom_tiers this section dataset_id :
  dom (_resolve_config this section dataset_id) =
    dom (defaults this) ∪ dom (dict_get section GLOBAL_KEY ∅)
      ∪ dom (dataset_tier section dataset_id).
Proof.
  rewrite resolve_config_tiers. unfold dict_update.
  rewrite !dom_union_L. apply set_eq; intros k.
  rewrite !elem_of_union. tauto.
Qed.

(** ** What resolution depends on *)

(** X1: the settings named by the result of [_resolve_config] are exactly
    those named by the defaults, by the "*" entry or by the applied dataset
    entry; every default setting is still there and nothing else appears. *)
Theorem resolve_config_names this (section : ServiceSection) dataset_id (k : string) :
  (is_Some (_resolve_config this section dataset_id !! k) ↔
     is_Some (defaults this !! k) ∨
     is_Some (dict_get section GLOBAL_KEY ∅ !! k) ∨
     is_Some (dataset_tier section dataset_id !! k)) ∧
  dom (defaults this) ⊆ dom (_resolve_config this section dataset_id).
Proof.
  split.
  - rewrite <- !elem_of_dom, resolve_config_dom_tiers, !elem_of_union. tauto.
  - rewrite resolve_config_dom_tiers. intros x Hx.
    rewrite !elem_of_union. tauto.
Qed.

(** X2: [_resolve_config] reads only the "*" entry of the section and the
    entry of the id it is given: two sections that agree on these two keys
    resolve alike, whatever they hold for other datasets. *)
Theorem resolve_config_other_datasets this (section section' : ServiceSection)
    dataset_id :
  section !! GLOBAL_KEY = section' !! GLOBAL_KEY →
  key_lookup section dataset_id = key_lookup section' dataset_id →
  _resolve_config this section dataset_id
    = _resolve_config this section' dataset_id.
Proof.
  intros Hg He. rewrite !resolve_config_tiers.
  unfold dataset_tier, dict_get. by rewrite Hg, He.
Qed.

Lemma resolve_config_other_datasets_witness :
  let this := __init__ "svc" (Some example_defaults) in
  _resolve_config this example_section (Some "ds1")
    = _resolve_config this
        (<["ds2" := {[ "quality" := VInt 1 ]}]> example_section) (Some "ds1").
Proof.
  intros this.
  apply (resolve_config_other_datasets this example_section
           (<["ds2" := {[ "quality" := VInt 1 ]}]> example_section)
           (Some "ds1")); reflexivity.
Defined.

(** X3: resolving again over a result changes nothing: a manager whose
    defaults are the mapping [_resolve_config] returned for a section and an
    id resolves that section and id to the same mapping. *)
Theorem resolve_config_again this (section : ServiceSection) dataset_id name cache :
  let resolved := _resolve_config this section dataset_id in
  _resolve_config (mkManager name resolved cache) section dataset_id = resolved.
Proof.
  intros resolved. unfold resolved. rewrite !resolve_config_tiers; simpl.
  apply map_eq; intros k. rewrite !dict_update_lookup.
  destruct (dataset_tier section dataset_id !! k); [reflexivity|].
  destruct (dict_get section GLOBAL_KEY ∅ !! k); reflexivity.
Qed.

(** ** What one call changes *)

(** X4: whatever it returns or raises, [get_config] leaves the name and the
    defaults of the manager and the cache entries of all other ids as they
    were; it fetches nothing on a hit and exactly once, for the id asked, on
    a miss; afterwards the id is cached with the returned mapping when the
    call returned, and is not cached when it raised. *)
Theorem get_config_footprint dl dataset_id w :
  let w' := snd (get_config dl dataset_id w) in
  service_name (self w') = service_name (self w) ∧
  defaults (self w') = defaults (self w) ∧
  (∀ other, other ≠ dataset_id →
     _config_cache (self w') !! other = _config_cache (self w) !! other) ∧
  fetches w' = (fetches w ++
                  match _config_cache (self w) !! dataset_id with
                  | Some _ => []
                  | None => [dataset_id]
                  end)%list ∧
  match fst (get_config dl dataset_id w) with
  | inr resolved => _config_cache (self w') !! dataset_id = Some resolved
  | inl _ => _config_cache (self w') !! dataset_id = None
  end.
Proof.
  intros w'. unfold w'. rewrite get_config_cases.
  destruct (_config_cache (self w) !! dataset_id) as [cached|] eqn:Hc;
    [|destruct (binaries_service_configs dl dataset_id) as [e|metadata]];
    simpl; repeat split; try done.
  - by rewrite app_nil_r.
  - intros other Hne. by rewrite lookup_insert_ne.
  - apply lookup_insert_eq.
Qed.

Lemma get_config_footprint_witness :
  let kept : Settings := {[ "quality" := VInt 20 ]} in
  let w := with_cache {[ Some "ds1" := kept ]}
                      (fresh "svc" (Some example_defaults)) in
  _config_cache (self (snd (get_config (example_platform "svc") (Some "ds2") w)))
    !! Some "ds1" = Some kept ∧
  fetches (snd (get_config (example_platform "svc") (Some "ds2") w))
    = [Some "ds2"].
Proof.
  intros kept w.
  destruct (get_config_footprint (example_platform "svc") (Some "ds2") w)
    as (_ & _ & Hframe & Hfetch & _).
  split; [|exact Hfetch].
  rewrite Hframe by discriminate. reflexivity.
Defined.

(** X5: a failure is not remembered.  When [get_config] raised on a miss, the
    next [get_config] for the same id goes to the platform again and, if the
    fetch returns this time, returns the merge of what was fetched; the two
    calls made two fetches. *)
Theorem get_config_retry_after_failure dl dl' dataset_id w e metadata :
  _config_cache (self w) !! dataset_id = None →
  binaries_service_configs dl dataset_id = inl e →
  binaries_service_configs dl' dataset_id = inr metadata →
  let w1 := snd (get_config dl dataset_id w) in
  fst (get_config dl dataset_id w) = inl e ∧
  fst (get_config dl' dataset_id w1)
    = inr (_resolve_config (self w) (section_of (self w) metadata) dataset_id) ∧
  fetches (snd (get_config dl' dataset_id w1))
    = (fetches w ++ [dataset_id; dataset_id])%list.
Proof.
  intros Hc He Hm w1. unfold w1.
  rewrite (get_config_cases dl), Hc, He; cbn [fst snd].
  rewrite (get_config_cases dl'); cbn [with_fetch self].
  rewrite Hc, Hm; simpl. repeat split. by rewrite <- app_assoc.
Qed.

Lemma get_config_retry_after_failure_witness :
  let down := mkPlatform (fun _ => inl (PlatformException "500" "down")) in
  let w := fresh "svc" (Some example_defaults) in
  fst (get_config (example_platform "svc") (Some "ds1")
         (snd (get_config down (Some "ds1") w)))
    = inr (_resolve_config (self w) example_section (Some "ds1")) ∧
  fetches (snd (get_config (example_platform "svc") (Some "ds1")
                  (snd (get_config down (Some "ds1") w))))
    = [Some "ds1"; Some "ds1"].
Proof.
  intros down w.
  assert (Hc : _config_cache (self w) !! Some "ds1" = None) by reflexivity.
  assert (He : binaries_service_configs down (Some "ds1")
               = inl (PlatformException "500" "down")) by reflexivity.
  assert (Hm : binaries_service_configs (example_platform "svc") (Some "ds1")
               = inr (Some {[ "svc" := example_section ]})) by reflexivity.
  destruct (get_config_retry_after_failure down (example_platform "svc")
              (Some "ds1") w _ _ Hc He Hm) as (_ & Hr & Hf).
  split; [exact Hr | exact Hf].
Defined.

(** X6: [reload_config] drops the cached entry before it fetches, so when the
    fetch raises the old mapping is gone: the call raises what the fetch
    raised and leaves no entry for the id, the cache being the old one
    without that id for a non-empty id and empty for the empty string. *)
Theorem reload_config_failure_drops_entry dl (id : string) w e :
  binaries_service_configs dl (Some id) = inl e →
  let w' := snd (reload_config dl id w) in
  fst (reload_config dl id w) = inl e ∧
  _config_cache (self w') !! Some id = None ∧
  _config_cache (self w') =
    (if truthy (Some id) then delete (Some id) (_config_cache (self w)) else ∅) ∧
  fetches w' = (fetches w ++ [Some id])%list.
Proof.
  intros He w'. unfold w'. rewrite reload_config_cases, get_config_cases.
  rewrite clear_cache_entry_gone, He; cbn [fst snd with_fetch self fetches].
  destruct (clear_cache_settings (Some id) w) as (_ & _ & Hf).
  rewrite Hf. repeat split.
  - apply clear_cache_entry_gone.
  - rewrite clear_cache_cases; cbn [snd].
    destruct (truthy (Some id));
      [destruct (_config_cache (self w) !! Some id) eqn:Hc|]; simpl; try done.
    symmetry. by apply delete_id.
Qed.

Lemma reload_config_failure_drops_entry_witness :
  let down := mkPlatform (fun _ => inl (NotFound "ds1")) in
  let w := with_cache {[ Some "ds1" := example_defaults ]} (fresh "svc" None) in
  _config_cache (self w) !! Some "ds1" = Some example_defaults ∧
  fst (reload_config down "ds1" w) = inl (NotFound "ds1") ∧
  _config_cache (self (snd (reload_config down "ds1" w))) !! Some "ds1" = None.
Proof.
  intros down w. split; [reflexivity|].
  assert (He : binaries_service_configs down (Some "ds1") = inl (NotFound "ds1"))
    by reflexivity.
  destruct (reload_config_failure_drops_entry down "ds1" w _ He)
    as (Hr & Hgone & _).
  split; [exact Hr | exact Hgone].
Defined.

(** X7: [clear_cache] never raises and never fetches, for any id or none; it
    only removes entries, the one of the given id among them; and calling it
    again with the same argument changes nothing more. *)
Theorem clear_cache_idempotent dataset_id w :
  let w' := snd (clear_cache dataset_id w) in
  fst (clear_cache dataset_id w) = inr tt ∧
  fetches w' = fetches w ∧
  _config_cache (self w') ⊆ _config_cache (self w) ∧
  _config_cache (self w') !! dataset_id = None ∧
  clear_cache dataset_id w' = (inr tt, w').
Proof.
  intros w'. unfold w'. repeat split.
  - by rewrite clear_cache_cases.
  - apply clear_cache_settings.
  - apply clear_cache_shrinks.
  - apply clear_cache_entry_gone.
  - rewrite (clear_cache_cases dataset_id (snd _)).
    rewrite clear_cache_entry_gone. f_equal.
    destruct (truthy dataset_id) eqn:Ht; [reflexivity|].
    rewrite clear_cache_cases, Ht; reflexivity.
Qed.

(** X8: after [clear_cache] without an id (or with the empty string) nothing
    is cached, so the next [get_config] goes to the platform whichever id it
    is asked for. *)
Theorem clear_all_then_get_config_fetches dl dataset_id asked w :
  truthy dataset_id = false →
  let w' := snd (clear_cache dataset_id w) in
  _config_cache (self w') = ∅ ∧
  fetches (snd (get_config dl asked w')) = (fetches w ++ [asked])%list ∧
  fst (get_config dl asked w') =
    match binaries_service_configs dl asked with
    | inl e => inl e
    | inr metadata =>
        inr (_resolve_config (self w) (section_of (self w) metadata) asked)
    end.
Proof.
  intros Ht w'. unfold w'. rewrite (clear_cache_falsy _ _ Ht); cbn [snd].
  split; [reflexivity|]. rewrite get_config_cases; simpl.
  rewrite lookup_empty.
  destruct (binaries_service_configs dl asked); simpl; split; reflexivity.
Qed.

Lemma clear_all_then_get_config_fetches_witness :
  let w := with_cache {[ Some "ds1" := example_defaults ]} (fresh "svc" None) in
  fetches (snd (get_config (example_platform "svc") (Some "ds1")
                  (snd (clear_cache None w)))) = [Some "ds1"].
Proof.
  intros w.
  assert (Ht : truthy None = false) by reflexivity.
  destruct (clear_all_then_get_config_fetches (example_platform "svc") None
              (Some "ds1") w Ht) as (_ & Hf & _).
  exact Hf.
Defined.

(** ** Invariants over any sequence of calls *)

Lemma get_config_entries (P : DatasetId → Settings → Prop) dl dataset_id w :
  (∀ id cfg, _config_cache (self w) !! id = Some cfg → P id cfg) →
  (∀ metadata,
     binaries_service_configs dl dataset_id = inr metadata →
     P dataset_id
       (_resolve_config (self w) (section_of (self w) metadata) dataset_id)) →
  ∀ id cfg,
    _config_cache (self (snd (get_config dl dataset_id w))) !! id = Some cfg →
    P id cfg.
Proof.
  intros Hold Hnew id cfg. rewrite get_config_cases.
  destruct (_config_cache (self w) !! dataset_id) as [cached|] eqn:Hc;
    [|destruct (binaries_service_configs dl dataset_id) as [e|metadata] eqn:Hm];
    simpl; try apply Hold.
  intros [[<- <-]|[_ Hl]]%lookup_insert_Some; [by apply Hnew | by apply Hold].
Qed.

Lemma clear_cache_entries (P : DatasetId → Settings → Prop) dataset_id w :
  (∀ id cfg, _config_cache (self w) !! id = Some cfg → P id cfg) →
  ∀ id cfg,
    _config_cache (self (snd (clear_cache dataset_id w))) !! id = Some cfg →
    P id cfg.
Proof.
  intros Hold id cfg Hl. apply Hold.
  eapply lookup_weaken; [exact Hl | apply clear_cache_shrinks].
Qed.

Lemma resolve_section_same this this' metadata dataset_id :
  service_name this = service_name this' →
  defaults this = defaults this' →
  _resolve_config this (section_of this metadata) dataset_id
    = _resolve_config this' (section_of this' metadata) dataset_id.
Proof.
  intros Hn Hd. unfold section_of. rewrite Hn.
  by apply resolve_config_same_settings.
Qed.

Lemma perform_entries (P : DatasetId → Settings → Prop) dl c w :
  (∀ id cfg, _config_cache (self w) !! id = Some cfg → P id cfg) →
  (∀ id metadata,
     requested c = Some id →
     binaries_service_configs dl id = inr metadata →
     P id (_resolve_config (self w) (section_of (self w) metadata) id)) →
  ∀ id cfg, _config_cache (self (perform dl c w)) !! id = Some cfg → P id cfg.
Proof.
  intros Hold Hnew. destruct c as [d|d|d]; simpl.
  - apply get_config_entries; [exact Hold|]. intros md Hm. by apply Hnew.
  - by apply clear_cache_entries.
  - rewrite reload_config_cases.
    destruct (clear_cache_settings (Some d) w) as (Hn & Hd & _).
    apply get_config_entries; [by apply clear_cache_entries|].
    intros md Hm.
    rewrite (resolve_section_same _ (self w)) by done. by apply Hnew.
Qed.

Lemma perform_all_settings calls w :
  service_name (self (perform_all calls w)) = service_name (self w) ∧
  defaults (self (perform_all calls w)) = defaults (self w).
Proof.
  revert w. induction calls as [|[dl c] rest IH]; intros w; simpl; [done|].
  destruct (IH (perform dl c w)) as [Hn Hd].
  destruct (perform_settings dl c w) as [Hn' Hd'].
  split; congruence.
Qed.

Lemma perform_all_entries (P : DatasetId → Settings → Prop) calls w :
  (∀ id cfg, _config_cache (self w) !! id = Some cfg → P id cfg) →
  (∀ dl c id metadata,
     (dl, c) ∈ calls →
     requested c = Some id →
     binaries_service_configs dl id = inr metadata →
     P id (_resolve_config (self w) (section_of (self w) metadata) id)) →
  ∀ id cfg,
    _config_cache (self (perform_all calls w)) !! id = Some cfg → P id cfg.
Proof.
  revert w. induction calls as [|[dl c] rest IH]; intros w Hold Hnew; simpl;
    [exact Hold|].
  destruct (perform_settings dl c w) as [Hn Hd].
  apply IH.
  - apply perform_entries; [exact Hold|].
    intros id md Hreq Hm. apply (Hnew dl c); [left | done | done].
  - intros dl' c' id md Hin Hreq Hm.
    rewrite (resolve_section_same _ (self w)) by done.
    apply (Hnew dl' c'); [by right | done | done].
Qed.

Lemma get_config_fetches dl dataset_id w :
  fetches (snd (get_config dl dataset_id w)) =
    (fetches w ++ match _config_cache (self w) !! dataset_id with
                  | Some _ => []
                  | None => [dataset_id]
                  end)%list.
Proof.
  rewrite get_config_cases.
  destruct (_config_cache (self w) !! dataset_id);
    [|destruct (binaries_service_configs dl dataset_id)]; simpl;
    [by rewrite app_nil_r | done | done].
Qed.

Lemma perform_fetches dl c w :
  ∃ l, fetches (perform dl c w) = (fetches w ++ l)%list ∧
       l `sublist_of` option_list (requested c).
Proof.
  destruct c as [d|d|d]; simpl.
  - eexists; split; [apply get_config_fetches|].
    destruct (_config_cache (self w) !! d); [apply sublist_nil_l | done].
  - destruct (clear_cache_settings d w) as (_ & _ & Hf).
    exists []. rewrite app_nil_r. split; [exact Hf | done].
  - rewrite reload_config_cases.
    pose proof (get_config_fetches dl (Some d) (snd (clear_cache (Some d) w)))
      as Hf.
    destruct (clear_cache_settings (Some d) w) as (_ & _ & Hf').
    rewrite Hf' in Hf. eexists; split; [exact Hf|].
    destruct (_config_cache _ !! Some d); [apply sublist_nil_l | done].
Qed.

Lemma perform_all_fetches calls w :
  ∃ l, fetches (perform_all calls w) = (fetches w ++ l)%list ∧
       l `sublist_of` omap (fun pc => requested pc.2) calls.
Proof.
  revert w. induction calls as [|[dl c] rest IH]; intros w; simpl.
  - exists []. by rewrite app_nil_r.
  - destruct (IH (perform dl c w)) as (l2 & Hl2 & Hs2).
    destruct (perform_fetches dl c w) as (l1 & Hl1 & Hs1).
    exists (l1 ++ l2)%list. split.
    + by rewrite Hl2, Hl1, <- app_assoc.
    + destruct (requested c) as [id|]; simpl in *.
      * by apply (sublist_app l1 [id] l2).
      * apply sublist_nil_r in Hs1 as ->. exact Hs2.
Qed.

(** X9: the name and the defaults given at construction are never changed,
    and every cached mapping, hence every mapping [get_config] returns,
    carries every default setting: this holds after any sequence of
    [get_config], [clear_cache] and [reload_config] calls on a new manager,
    whatever the platform answered and whichever calls raised. *)
Theorem defaults_always_present name dflts calls dl dataset_id :
  let w := perform_all calls (mkWorld (__init__ name dflts) []) in
  service_name (self w) = name ∧
  defaults (self w) = default ∅ dflts ∧
  (∀ id cfg, _config_cache (self w) !! id = Some cfg →
             dom (default ∅ dflts) ⊆ dom cfg) ∧
  (∀ resolved, fst (get_config dl dataset_id w) = inr resolved →
               dom (default ∅ dflts) ⊆ dom resolved).
Proof.
  intros w.
  destruct (perform_all_settings calls (mkWorld (__init__ name dflts) []))
    as [Hn Hd].
  assert (Hcache : ∀ id cfg, _config_cache (self w) !! id = Some cfg →
                             dom (default ∅ dflts) ⊆ dom cfg).
  { apply (perform_all_entries (fun _ cfg => dom (default ∅ dflts) ⊆ dom cfg)).
    - intros id cfg Hl. simpl in Hl. by rewrite lookup_empty in Hl.
    - intros _ _ id md _ _ _. rewrite resolve_config_dom_tiers; simpl.
      intros k Hk. rewrite !elem_of_union. tauto. }
  repeat split; [exact Hn | exact Hd | exact Hcache |].
  intros resolved Hr.
  destruct (get_config dl dataset_id w) as [res w'] eqn:Hrun.
  simpl in Hr; subst res.
  pose proof (get_config_returns_cached _ _ _ _ _ Hrun) as Hlast.
  apply (get_config_entries (fun _ cfg => dom (default ∅ dflts) ⊆ dom cfg)
           dl dataset_id w Hcache) with (id := dataset_id).
  - intros md _. rewrite resolve_config_dom_tiers. fold w in Hd. rewrite Hd.
    intros k Hk. rewrite !elem_of_union. tauto.
  - by rewrite Hrun.
Qed.

Lemma defaults_always_present_witness :
  let calls :=
    [ (example_platform "svc", GetConfig (Some "ds1"));
      (mkPlatform (fun _ => inl (NotFound "ds1")), ReloadConfig "ds1");
      (example_platform "svc", ClearCache None) ] in
  let w := perform_all calls (mkWorld (__init__ "svc" (Some example_defaults)) []) in
  ∃ resolved,
    fst (get_config (example_platform "svc") (Some "ds2") w) = inr resolved ∧
    dom example_defaults ⊆ dom resolved.
Proof.
  intros calls w.
  destruct (defaults_always_present "svc" (Some example_defaults) calls
              (example_platform "svc") (Some "ds2")) as (_ & _ & _ & Hret).
  eexists. split; [reflexivity|]. apply Hret. reflexivity.
Defined.

(** X10: the manager goes to the platform only for ids it was asked about:
    after any sequence of calls on a new manager, the trace of fetches is a
    subsequence of the ids passed to [get_config] and [reload_config], in
    call order; so each such call fetches at most once and [clear_cache]
    never does. *)
Theorem fetches_only_when_asked name dflts calls :
  fetches (perform_all calls (mkWorld (__init__ name dflts) []))
    `sublist_of` omap (fun pc => requested pc.2) calls ∧
  (List.length (fetches (perform_all calls (mkWorld (__init__ name dflts) [])))
     ≤ List.length calls)%nat.
Proof.
  destruct (perform_all_fetches calls (mkWorld (__init__ name dflts) []))
    as (l & Hl & Hs).
  simpl in Hl. rewrite Hl. split; [exact Hs|].
  apply sublist_length in Hs. etrans; [exact Hs|].
  clear. induction calls as [|[dl c] rest IH]; simpl; [done|].
  unfold omap in IH. destruct (requested c); simpl; lia.
Qed.

(** X11: while the platform keeps answering the same, the cache is
    invisible: after any sequence of calls on a new manager, [get_config]
    raises exactly when a fetch for that id raises, with the same exception,
    and otherwise returns the merge of what the platform holds for that id;
    a cached mapping is never out of date. *)
Theorem cache_transparent_on_fixed_platform dl name dflts
    (calls : list call) dataset_id :
  let this := __init__ name dflts in
  let w := perform_all (map (pair dl) calls) (mkWorld this []) in
  fst (get_config dl dataset_id w) =
    match binaries_service_configs dl dataset_id with
    | inl e => inl e
    | inr metadata =>
        inr (_resolve_config this (section_of this metadata) dataset_id)
    end.
Proof.
  intros this w.
  destruct (perform_all_settings (map (pair dl) calls) (mkWorld this []))
    as [Hn Hd]. fold w in Hn, Hd.
  assert (Hcache : ∀ id cfg, _config_cache (self w) !! id = Some cfg →
            ∃ md, binaries_service_configs dl id = inr md ∧
                  cfg = _resolve_config this (section_of this md) id).
  { apply (perform_all_entries
             (fun id cfg => ∃ md, binaries_service_configs dl id = inr md ∧
                                  cfg = _resolve_config this (section_of this md) id)).
    - intros id cfg Hl. simpl in Hl. by rewrite lookup_empty in Hl.
    - intros dl' c id md [c' [[= -> ->] _]]%list_elem_of_fmap _ Hm. eauto. }
  rewrite get_config_cases.
  destruct (_config_cache (self w) !! dataset_id) as [cached|] eqn:Hc.
  - destruct (Hcache _ _ Hc) as (md & Hm & ->). by rewrite Hm.
  - destruct (binaries_service_configs dl dataset_id) as [e|md]; simpl;
      [reflexivity|].
    f_equal. by apply resolve_section_same.
Qed.
